(** * deploy.py: a one-shot CloudFormation stack deployer

    The script reads a template file, asks the CloudFormation service to
    create a stack from it, blocks on the [stack_create_complete] waiter
    and prints a confirmation line.

    The function [deploy_stack] is embedded as a computation in a
    state-and-exception monad over a [World]: the world records the file
    handles the process holds, the lines written to the console, the state
    of the remote service and the trace of every call that leaves the
    function.  Unlike a state transformer stacked on an error monad, the
    world survives a raised exception, so the effects performed before a
    failure remain observable.

    What the script calls but does not define (the file system, boto3 and
    the remote service) is an [Env] of oracles; every theorem holds for
    all of them.  The two [import] statements and the passing of time are
    not modelled. *)

From Stdlib Require Import String List Arith Lia Bool.
Import ListNotations.
Local Open Scope string_scope.
Local Open Scope list_scope.

Set Implicit Arguments.

(** ** Python values and exceptions *)

(** A dict with string keys, as boto3 returns for an API response. *)
Definition dict := list (string * string).

(** The values [deploy_stack] can hand back to its caller. *)
Inductive pyvalue : Type :=
| PyNone
| PyStr (s : string)
| PyDict (d : dict).

(** Why the operating system refused an [open] or a [read]. *)
Inductive os_error : Type :=
| ENOENT   (* FileNotFoundError *)
| EACCES   (* PermissionError *)
| EISDIR   (* IsADirectoryError *)
| EIO.     (* plain OSError: the device failed under read() *)

(** The exceptions that can cross [deploy_stack]. *)
Inductive exn : Type :=
| OSError (errno : os_error) (filename : string)
| UnicodeDecodeError (encoding : string) (reason : string)
| BotoCoreError (msg : string)
| ClientError (code : string) (operation : string)
| WaiterError (waiter : string) (reason : string)
| ValueError (msg : string).

(** An error of the local file read ([open] or [read] on the template),
    as opposed to one of the remote service or of its client library. *)
Definition is_local_io_error (e : exn) : bool :=
  match e with
  | OSError _ _ | UnicodeDecodeError _ _ => true
  | _ => false
  end.

(** ** The world outside the function *)

(** What the path given to [open] leads to. *)
Inductive file_node : Type :=
| Missing                          (* no such file *)
| Denied                           (* exists, may not be opened *)
| Directory                        (* exists, is not a regular file *)
| Damaged                          (* opens, read() fails on the device *)
| Garbled                          (* opens, the bytes are not text *)
| Text (contents : string).        (* opens; read() returns [contents] *)

(** What one status read tells the waiter. *)
Inductive status : Type :=
| Pending      (* not terminal: keep polling *)
| Succeeded    (* success terminal state *)
| Failed.      (* failure terminal state *)

(** Calls that leave [deploy_stack], in the order they are made.  The
    status reads are issued by the waiter on behalf of [EvWait]. *)
Inductive event : Type :=
| EvOpen (path mode : string)
| EvRead (fd : nat)
| EvClose (fd : nat)
| EvClient (service : string)
| EvCreateStack (StackName TemplateBody : string) (Capabilities : list string)
| EvGetWaiter (waiter_name : string)
| EvWait (StackName : string)
| EvDescribeStacks (StackName : string) (reply : status)
| EvPrint (line : string).

(** How a call ends: with a value, or with an exception on its way up. *)
Inductive result (A : Type) : Type :=
| Ok (a : A)
| Raise (e : exn).
Arguments Raise {A} e.

Section Deployer.

(** State of the remote service; nothing in the script inspects it. *)
Variable R : Type.

Record World : Type := mkWorld {
  trace : list event;        (* oldest event first *)
  open_files : list nat;     (* descriptors held by the process *)
  stdout : list string;      (* console lines, oldest first *)
  remote : R
}.

(** The collaborators of the script. *)
Record Env : Type := mkEnv {
  (* local file system, read only *)
  fs : string -> file_node;
  (* boto3.client(service): [Some e] when building the client raises *)
  client_factory : string -> option exn;
  (* the waiters a client offers, with their maximum number of attempts *)
  waiter_table : string -> option nat;
  (* the service's answer to a creation request, and its next state *)
  svc_create_stack : R -> string -> string -> list string -> (exn + dict) * R;
  (* the service's answer to a status read, and its next state *)
  svc_describe_stacks : R -> string -> status * R
}.

(** ** The monad *)

Definition M (A : Type) : Type := World -> result A * World.

Definition ret {A} (a : A) : M A := fun w => (Ok a, w).

Definition raise {A} (e : exn) : M A := fun w => (Raise e, w).

Definition bind {A B} (m : M A) (k : A -> M B) : M B :=
  fun w =>
    match m w with
    | (Ok a, w1) => k a w1
    | (Raise e, w1) => (Raise e, w1)
    end.

(** [try: m finally: c]: [c] runs however [m] ends; an exception of [m]
    is raised again afterwards unless [c] raises one of its own. *)
Definition finally {A} (m : M A) (c : M unit) : M A :=
  fun w =>
    match m w with
    | (r, w1) =>
        match c w1 with
        | (Ok _, w2) => (r, w2)
        | (Raise e, w2) => (Raise e, w2)
        end
    end.

Definition run {A} (m : M A) (w : World) : result A * World := m w.

Notation "x <- m ;; k" := (bind m (fun x => k))
  (at level 61, m at next level, right associativity).
Notation "m ;; k" := (bind m (fun _ => k))
  (at level 61, right associativity).

(** ** Primitive effects *)

Definition log (e : event) : M unit :=
  fun w => (Ok tt, mkWorld (trace w ++ [e]) (open_files w) (stdout w) (remote w)).

(** A descriptor no open file uses. *)
Definition fresh_fd (held : list nat) : nat := S (list_max held).

Definition acquire_fd : M nat :=
  fun w =>
    let fd := fresh_fd (open_files w) in
    (Ok fd, mkWorld (trace w) (fd :: open_files w) (stdout w) (remote w)).

Definition release_fd (fd : nat) : M unit :=
  fun w =>
    (Ok tt, mkWorld (trace w) (remove Nat.eq_dec fd (open_files w))
                    (stdout w) (remote w)).

Definition write_stdout (line : string) : M unit :=
  fun w => (Ok tt, mkWorld (trace w) (open_files w) (stdout w ++ [line]) (remote w)).

Variable env : Env.

(** A file object: its descriptor and the path it was opened on. *)
Record file : Type := mkFile { fileno : nat; name : string }.

(** [open(path, mode)] *)
Definition open (path mode : string) : M file :=
  log (EvOpen path mode) ;;
  match fs env path with
  | Missing => raise (OSError ENOENT path)
  | Denied => raise (OSError EACCES path)
  | Directory => raise (OSError EISDIR path)
  | Damaged | Garbled | Text _ =>
      fd <- acquire_fd ;;
      ret (mkFile fd path)
  end.

(** [f.read()] *)
Definition file_read (f : file) : M string :=
  log (EvRead (fileno f)) ;;
  match fs env (name f) with
  | Text contents => ret contents
  | Garbled => raise (UnicodeDecodeError "utf-8" "invalid start byte")
  | _ => raise (OSError EIO (name f))
  end.

(** [f.close()], which is what [f.__exit__] does. *)
Definition file_close (f : file) : M unit :=
  log (EvClose (fileno f)) ;;
  release_fd (fileno f).

(** [with open(path, mode) as f: body(f)] *)
Definition with_open {A} (path mode : string) (body : file -> M A) : M A :=
  f <- open path mode ;;
  finally (body f) (file_close f).

(** A client object, and a waiter obtained from one. *)
Record client : Type := mkClient { service_name : string }.
Record waiter : Type := mkWaiter { waiter_name : string; max_attempts : nat }.

(** [boto3.client(service)] *)
Definition boto3_client (service : string) : M client :=
  log (EvClient service) ;;
  match client_factory env service with
  | Some e => raise e
  | None => ret (mkClient service)
  end.

(** [client.create_stack(StackName=.., TemplateBody=.., Capabilities=..)] *)
Definition create_stack (c : client) (StackName TemplateBody : string)
    (Capabilities : list string) : M dict :=
  log (EvCreateStack StackName TemplateBody Capabilities) ;;
  fun w =>
    match svc_create_stack env (remote w) StackName TemplateBody Capabilities with
    | (inl e, r) => (Raise e, mkWorld (trace w) (open_files w) (stdout w) r)
    | (inr response, r) => (Ok response, mkWorld (trace w) (open_files w) (stdout w) r)
    end.

(** [client.get_waiter(name)] *)
Definition get_waiter (c : client) (waiter_name : string) : M waiter :=
  log (EvGetWaiter waiter_name) ;;
  match waiter_table env waiter_name with
  | Some n => ret (mkWaiter waiter_name n)
  | None => raise (ValueError ("Waiter does not exist: " ++ waiter_name))
  end.

(** One status read against the service. *)
Definition describe_stacks (StackName : string) : M status :=
  fun w =>
    match svc_describe_stacks env (remote w) StackName with
    | (st, r) =>
        (Ok st, mkWorld (trace w ++ [EvDescribeStacks StackName st])
                        (open_files w) (stdout w) r)
    end.

(** Modelled from the spec: the waiter of the client library, which is not
    part of the script.  It reads the status of the named stack until the
    service reports the success terminal state (the wait returns) or a
    failure terminal state (the wait raises), and gives up when its
    attempts are used up.  The first read is made before any attempt is
    counted, so [retries] is the number of reads still allowed after
    this one.  The pause between two reads is not modelled. *)
Fixpoint poll (w8 : waiter) (StackName : string) (retries : nat) : M unit :=
  st <- describe_stacks StackName ;;
  match st with
  | Succeeded => ret tt
  | Failed =>
      raise (WaiterError (waiter_name w8)
                         "Waiter encountered a terminal failure state")
  | Pending =>
      match retries with
      | O => raise (WaiterError (waiter_name w8) "Max attempts exceeded")
      | S k => poll w8 StackName k
      end
  end.

(** [waiter.wait(StackName=..)] *)
Definition wait (w8 : waiter) (StackName : string) : M unit :=
  log (EvWait StackName) ;;
  poll w8 StackName (max_attempts w8 - 1).

(** [print(line)] *)
Definition print (line : string) : M unit :=
  log (EvPrint line) ;;
  write_stdout line.

(** ** The script *)

(** The f-string of the last statement. *)
Definition success_line (stack_name : string) : string :=
  "Stack " ++ stack_name ++ " created successfully.".

Definition deploy_stack (stack_name template_file : string) : M pyvalue :=
  template_body <- with_open template_file "r" (fun file => file_read file) ;;
  client <- boto3_client "cloudformation" ;;
  response <- create_stack client stack_name template_body ["CAPABILITY_IAM"] ;;
  waiter <- get_waiter client "stack_create_complete" ;;
  wait waiter stack_name ;;
  print (success_line stack_name) ;;
  ret PyNone.

(** The module body: the guarded call at the bottom of the file.
    [dunder_name] is the value of [__name__], [argv] the command line. *)
Definition module_main (dunder_name : string) (argv : list string) : M unit :=
  if String.eqb dunder_name "__main__"
  then deploy_stack "my-iac-stack" "cloudformation/main.yaml" ;; ret tt
  else ret tt.

End Deployer.

(** ** Reading a trace *)

(** The events a run added to the trace of the world it started in. *)
Definition events_since {R} (w w' : World R) : list event :=
  skipn (length (trace w)) (trace w').

Definition is_open (ev : event) : bool :=
  match ev with EvOpen _ _ => true | _ => false end.
Definition is_read (ev : event) : bool :=
  match ev with EvRead _ => true | _ => false end.
Definition is_close (ev : event) : bool :=
  match ev with EvClose _ => true | _ => false end.
Definition is_client (ev : event) : bool :=
  match ev with EvClient _ => true | _ => false end.
Definition is_create_stack (ev : event) : bool :=
  match ev with EvCreateStack _ _ _ => true | _ => false end.
Definition is_get_waiter (ev : event) : bool :=
  match ev with EvGetWaiter _ => true | _ => false end.
Definition is_wait (ev : event) : bool :=
  match ev with EvWait _ => true | _ => false end.
Definition is_status_read (ev : event) : bool :=
  match ev with EvDescribeStacks _ _ => true | _ => false end.
Definition is_print (ev : event) : bool :=
  match ev with EvPrint _ => true | _ => false end.

(** Calls that reach the remote service or build the means to reach it. *)
Definition is_remote (ev : event) : bool :=
  is_client ev || is_create_stack ev || is_get_waiter ev
  || is_wait ev || is_status_read ev.

Definition count (p : event -> bool) (t : list event) : nat :=
  length (filter p t).

(** The arguments of the creation requests of a trace. *)
Fixpoint create_requests (t : list event)
  : list (string * string * list string) :=
  match t with
  | [] => []
  | EvCreateStack n b c :: t' => (n, b, c) :: create_requests t'
  | _ :: t' => create_requests t'
  end.

(** The calls [deploy_stack] makes itself: the status reads are made by
    the waiter on its behalf. *)
Definition own_calls (t : list event) : list event :=
  filter (fun ev => negb (is_status_read ev)) t.

(** The statements of [deploy_stack] in source order, as the calls they
    make when none of them raises. *)
Definition script_calls (stack_name template_file template_body : string)
    (fd : nat) : list event :=
  [EvOpen template_file "r";
   EvRead fd;
   EvClose fd;
   EvClient "cloudformation";
   EvCreateStack stack_name template_body ["CAPABILITY_IAM"];
   EvGetWaiter "stack_create_complete";
   EvWait stack_name;
   EvPrint ("Stack " ++ stack_name ++ " created successfully.")].

(** The stack names handed to the waiter. *)
Fixpoint wait_targets (t : list event) : list string :=
  match t with
  | [] => []
  | EvWait n :: t' => n :: wait_targets t'
  | _ :: t' => wait_targets t'
  end.

(** ** A run of the function, seen from outside *)

Section Observing.

Variable R : Type.
Variable env : Env R.

(** How the call [deploy_stack(stack_name, template_file)] ends. *)
Definition deploy_result (stack_name template_file : string) (w : World R)
  : result pyvalue :=
  fst (run (deploy_stack env stack_name template_file) w).

(** The world it leaves behind. *)
Definition deploy_world (stack_name template_file : string) (w : World R)
  : World R :=
  snd (run (deploy_stack env stack_name template_file) w).

(** The calls it made, in order. *)
Definition deploy_calls (stack_name template_file : string) (w : World R)
  : list event :=
  events_since w (deploy_world stack_name template_file w).

(** The [with] statement of the function, on its own. *)
Definition read_step (template_file : string) : M R string :=
  with_open env template_file "r" (fun file => file_read env file).

End Observing.

(** ** How a run of [deploy_stack] can end *)

Section Outcomes.

Variable R : Type.
Variable env : Env R.

(** The world after a stretch of calls that only add to the trace and move
    the remote service. *)
Definition advance (w : World R) (evs : list event) (r : R) : World R :=
  mkWorld (trace w ++ evs) (open_files w) (stdout w) r.

(** The calls of the [with] block once [open] has succeeded. *)
Definition read_calls (path : string) (fd : nat) : list event :=
  [EvOpen path "r"; EvRead fd; EvClose fd].

(** The calls up to and including the creation request. *)
Definition request_calls (stack_name path body : string) (fd : nat)
  : list event :=
  read_calls path fd
  ++ [EvClient "cloudformation";
      EvCreateStack stack_name body ["CAPABILITY_IAM"]].

(** The status reads of one wait: [n] answers [Pending], then [last]. *)
Definition status_reads (stack_name : string) (n : nat) (last : status)
  : list event :=
  repeat (EvDescribeStacks stack_name Pending) n
  ++ [EvDescribeStacks stack_name last].

(** The calls of a wait that was entered. *)
Definition wait_calls (stack_name : string) (n : nat) (last : status)
  : list event :=
  [EvGetWaiter "stack_create_complete"; EvWait stack_name]
  ++ status_reads stack_name n last.

(** What a wait makes of the last status it read. *)
Definition wait_result (w8 : waiter) (last : status) : result unit :=
  match last with
  | Succeeded => Ok tt
  | Failed =>
      Raise (WaiterError (waiter_name w8)
                         "Waiter encountered a terminal failure state")
  | Pending => Raise (WaiterError (waiter_name w8) "Max attempts exceeded")
  end.

(** The exception [open] raises on a node that does not open. *)
Definition open_errno (node : file_node) : option os_error :=
  match node with
  | Missing => Some ENOENT
  | Denied => Some EACCES
  | Directory => Some EISDIR
  | Damaged | Garbled | Text _ => None
  end.

(** The exception [read] raises on a node that opens but does not read. *)
Definition read_failure (path : string) (node : file_node) : option exn :=
  match node with
  | Damaged => Some (OSError EIO path)
  | Garbled => Some (UnicodeDecodeError "utf-8" "invalid start byte")
  | Missing | Denied | Directory | Text _ => None
  end.

(** Whether the contents behind a node can be read in full. *)
Definition reads (node : file_node) : bool :=
  match node with
  | Text _ => true
  | _ => false
  end.

(** The ways a run of [deploy_stack stack_name path] from [w] ends, one
    constructor per statement that can raise and one for the normal end. *)
Inductive deploy_run (stack_name path : string) (w : World R)
  : result pyvalue * World R -> Prop :=
| run_open_raises errno :
    open_errno (fs env path) = Some errno ->
    deploy_run stack_name path w
      (Raise (OSError errno path), advance w [EvOpen path "r"] (remote w))
| run_read_raises e :
    read_failure path (fs env path) = Some e ->
    deploy_run stack_name path w
      (Raise e,
       advance w (read_calls path (fresh_fd (open_files w))) (remote w))
| run_client_raises body e :
    fs env path = Text body ->
    client_factory env "cloudformation" = Some e ->
    deploy_run stack_name path w
      (Raise e,
       advance w (read_calls path (fresh_fd (open_files w))
                  ++ [EvClient "cloudformation"]) (remote w))
| run_create_raises body e r :
    fs env path = Text body ->
    client_factory env "cloudformation" = None ->
    svc_create_stack env (remote w) stack_name body ["CAPABILITY_IAM"]
      = (inl e, r) ->
    deploy_run stack_name path w
      (Raise e,
       advance w (request_calls stack_name path body (fresh_fd (open_files w))) r)
| run_get_waiter_raises body response r :
    fs env path = Text body ->
    client_factory env "cloudformation" = None ->
    svc_create_stack env (remote w) stack_name body ["CAPABILITY_IAM"]
      = (inr response, r) ->
    waiter_table env "stack_create_complete" = None ->
    deploy_run stack_name path w
      (Raise (ValueError "Waiter does not exist: stack_create_complete"),
       advance w (request_calls stack_name path body (fresh_fd (open_files w))
                  ++ [EvGetWaiter "stack_create_complete"]) r)
| run_wait_raises body response r attempts n last r' e :
    fs env path = Text body ->
    client_factory env "cloudformation" = None ->
    svc_create_stack env (remote w) stack_name body ["CAPABILITY_IAM"]
      = (inr response, r) ->
    waiter_table env "stack_create_complete" = Some attempts ->
    last <> Succeeded ->
    wait_result (mkWaiter "stack_create_complete" attempts) last = Raise e ->
    n <= attempts - 1 ->
    deploy_run stack_name path w
      (Raise e,
       advance w (request_calls stack_name path body (fresh_fd (open_files w))
                  ++ wait_calls stack_name n last) r')
| run_returns body response r attempts n r' :
    fs env path = Text body ->
    client_factory env "cloudformation" = None ->
    svc_create_stack env (remote w) stack_name body ["CAPABILITY_IAM"]
      = (inr response, r) ->
    waiter_table env "stack_create_complete" = Some attempts ->
    n <= attempts - 1 ->
    deploy_run stack_name path w
      (Ok PyNone,
       mkWorld (trace w
                ++ request_calls stack_name path body (fresh_fd (open_files w))
                ++ wait_calls stack_name n Succeeded
                ++ [EvPrint (success_line stack_name)])
               (open_files w)
               (stdout w ++ [success_line stack_name])
               r').

End Outcomes.

(** The same collaborators, except that every response to an accepted
    creation request is rewritten by [f] before the script sees it. *)
Definition with_response {R} (f : dict -> dict) (env : Env R) : Env R :=
  mkEnv (fs env) (client_factory env) (waiter_table env)
        (fun r n body caps =>
           match svc_create_stack env r n body caps with
           | (inl e, r') => (inl e, r')
           | (inr response, r') => (inr (f response), r')
           end)
        (svc_describe_stacks env).

(** ** A service to run the script against

    Stack names are unique: a second creation under a name in use is
    refused.  A stack answers [Pending] to a fixed number of status reads
    and [Succeeded] from then on; a name the service does not know is a
    failure. *)
Module Demo.

Definition R : Type := list (string * nat).

Fixpoint lookup (n : string) (r : R) : option nat :=
  match r with
  | [] => None
  | (k, v) :: r' => if String.eqb k n then Some v else lookup n r'
  end.

Fixpoint update (n : string) (v : nat) (r : R) : R :=
  match r with
  | [] => []
  | (k, v0) :: r' =>
      if String.eqb k n then (k, v) :: r' else (k, v0) :: update n v r'
  end.

Definition files (path : string) : file_node :=
  if String.eqb path "cloudformation/main.yaml" then Text "Resources: {}"
  else if String.eqb path "private.yaml" then Denied
  else if String.eqb path "cloudformation" then Directory
  else if String.eqb path "bad-sector.yaml" then Damaged
  else if String.eqb path "logo.png" then Garbled
  else Missing.

Definition create (r : R) (n body : string) (caps : list string)
  : (exn + dict) * R :=
  match lookup n r with
  | Some _ => (inl (ClientError "AlreadyExistsException" "CreateStack"), r)
  | None => (inr [("StackId", ("arn:aws:cloudformation:stack/" ++ n)%string)], (n, 1) :: r)
  end.

Definition describe (r : R) (n : string) : status * R :=
  match lookup n r with
  | None => (Failed, r)
  | Some O => (Succeeded, r)
  | Some (S k) => (Pending, update n k r)
  end.

Definition waiters (n : string) : option nat :=
  if String.eqb n "stack_create_complete" then Some 120 else None.

Definition env : Env R :=
  mkEnv files (fun _ => None) waiters create describe.

(** The same service seen through a waiter that gives up after one read. *)
Definition impatient : Env R :=
  mkEnv files (fun _ => None) (fun _ => Some 1) create describe.

(** A machine on which no region is configured: no client can be built. *)
Definition unconfigured : Env R :=
  mkEnv files (fun _ => Some (BotoCoreError "You must specify a region."))
        waiters create describe.

(** A process holding the three standard streams, facing a service that
    already has the stacks listed in [r]. *)
Definition boot (r : R) : World R := mkWorld [] [0; 1; 2] [] r.

End Demo.

(** ** Runs against the demo service *)

Example demo_end_to_end :
  run (deploy_stack Demo.env "my-iac-stack" "cloudformation/main.yaml")
      (Demo.boot [])
  = (Ok PyNone,
     mkWorld [EvOpen "cloudformation/main.yaml" "r"; EvRead 3; EvClose 3;
              EvClient "cloudformation";
              EvCreateStack "my-iac-stack" "Resources: {}" ["CAPABILITY_IAM"];
              EvGetWaiter "stack_create_complete";
              EvWait "my-iac-stack";
              EvDescribeStacks "my-iac-stack" Pending;
              EvDescribeStacks "my-iac-stack" Succeeded;
              EvPrint "Stack my-iac-stack created successfully."]
             [0; 1; 2]
             ["Stack my-iac-stack created successfully."]
             [("my-iac-stack", 0)]).
Proof. reflexivity. Qed.

Example demo_duplicate_name :
  run (deploy_stack Demo.env "my-iac-stack" "cloudformation/main.yaml")
      (Demo.boot [("my-iac-stack", 0)])
  = (Raise (ClientError "AlreadyExistsException" "CreateStack"),
     mkWorld [EvOpen "cloudformation/main.yaml" "r"; EvRead 3; EvClose 3;
              EvClient "cloudformation";
              EvCreateStack "my-iac-stack" "Resources: {}" ["CAPABILITY_IAM"]]
             [0; 1; 2] [] [("my-iac-stack", 0)]).
Proof. reflexivity. Qed.

Example demo_missing_file :
  run (deploy_stack Demo.env "my-iac-stack" "nowhere.yaml") (Demo.boot [])
  = (Raise (OSError ENOENT "nowhere.yaml"),
     mkWorld [EvOpen "nowhere.yaml" "r"] [0; 1; 2] [] []).
Proof. reflexivity. Qed.

Example demo_read_error :
  run (deploy_stack Demo.env "my-iac-stack" "bad-sector.yaml") (Demo.boot [])
  = (Raise (OSError EIO "bad-sector.yaml"),
     mkWorld [EvOpen "bad-sector.yaml" "r"; EvRead 3; EvClose 3]
             [0; 1; 2] [] []).
Proof. reflexivity. Qed.

Example demo_not_text :
  run (deploy_stack Demo.env "my-iac-stack" "logo.png") (Demo.boot [])
  = (Raise (UnicodeDecodeError "utf-8" "invalid start byte"),
     mkWorld [EvOpen "logo.png" "r"; EvRead 3; EvClose 3] [0; 1; 2] [] []).
Proof. reflexivity. Qed.

Example demo_no_region :
  run (deploy_stack Demo.unconfigured "my-iac-stack" "cloudformation/main.yaml")
      (Demo.boot [])
  = (Raise (BotoCoreError "You must specify a region."),
     mkWorld [EvOpen "cloudformation/main.yaml" "r"; EvRead 3; EvClose 3;
              EvClient "cloudformation"]
             [0; 1; 2] [] []).
Proof. reflexivity. Qed.

Example demo_imported :
  run (module_main Demo.env "deploy" []) (Demo.boot []) = (Ok tt, Demo.boot []).
Proof. reflexivity. Qed.

Example demo_wait_times_out :
  run (deploy_stack Demo.impatient "my-iac-stack" "cloudformation/main.yaml")
      (Demo.boot [])
  = (Raise (WaiterError "stack_create_complete" "Max attempts exceeded"),
     mkWorld [EvOpen "cloudformation/main.yaml" "r"; EvRead 3; EvClose 3;
              EvClient "cloudformation";
              EvCreateStack "my-iac-stack" "Resources: {}" ["CAPABILITY_IAM"];
              EvGetWaiter "stack_create_complete";
              EvWait "my-iac-stack";
              EvDescribeStacks "my-iac-stack" Pending]
             [0; 1; 2] [] [("my-iac-stack", 0)]).
Proof. reflexivity. Qed.

(** ** Every run ends in one of the listed ways *)

Section Runs.

Variable R : Type.
Variable env : Env R.

(** *** Descriptors *)

Lemma fresh_fd_not_held (held : list nat) : ~ In (fresh_fd held) held.
Proof.
  unfold fresh_fd. intros Hin.
  pose proof (proj1 (list_max_le held (list_max held)) (le_n _)) as Hall.
  rewrite Forall_forall in Hall.
  specialize (Hall _ Hin). lia.
Qed.

Lemma release_fresh_fd (held : list nat) :
  remove Nat.eq_dec (fresh_fd held) (fresh_fd held :: held) = held.
Proof.
  cbn [remove].
  destruct (Nat.eq_dec (fresh_fd held) (fresh_fd held)) as [_ | Hne];
    [| congruence].
  apply notin_remove, fresh_fd_not_held.
Qed.

(** *** The [with] block *)

Lemma with_open_text (path body : string) (w : World R) :
  fs env path = Text body ->
  run (with_open env path "r" (fun file => file_read env file)) w
  = (Ok body, advance w (read_calls path (fresh_fd (open_files w))) (remote w)).
Proof.
  intros Hfs.
  unfold run, with_open, open, file_read, file_close, finally, bind, log,
    acquire_fd, release_fd, ret, advance, read_calls.
  cbn -[remove fresh_fd]. rewrite Hfs.
  cbn -[remove fresh_fd]. rewrite Hfs. cbn -[remove fresh_fd].
  rewrite release_fresh_fd, <- !app_assoc. reflexivity.
Qed.

Lemma with_open_damaged (path : string) (e : exn) (w : World R) :
  read_failure path (fs env path) = Some e ->
  run (with_open env path "r" (fun file => file_read env file)) w
  = (Raise e,
     advance w (read_calls path (fresh_fd (open_files w))) (remote w)).
Proof.
  intros Hfail.
  unfold run, with_open, open, file_read, file_close, finally, bind, log,
    acquire_fd, release_fd, ret, raise, advance, read_calls.
  cbn -[remove fresh_fd].
  destruct (fs env path) eqn:Hfs; cbn in Hfail; inversion Hfail; subst;
    cbn -[remove fresh_fd]; rewrite Hfs; cbn -[remove fresh_fd];
    rewrite release_fresh_fd, <- !app_assoc; reflexivity.
Qed.

Lemma with_open_refused (path : string) (errno : os_error) (w : World R) :
  open_errno (fs env path) = Some errno ->
  run (with_open env path "r" (fun file => file_read env file)) w
  = (Raise (OSError errno path), advance w [EvOpen path "r"] (remote w)).
Proof.
  intros Hfs.
  unfold run, with_open, open, bind, log, raise, advance.
  cbn. destruct (fs env path); cbn in Hfs; inversion Hfs; subst; reflexivity.
Qed.

(** *** The waiter *)

Lemma advance_advance (w : World R) (a b : list event) (r r' : R) :
  advance (advance w a r) b r' = advance w (a ++ b) r'.
Proof. unfold advance. cbn. rewrite app_assoc. reflexivity. Qed.

Lemma poll_run (w8 : waiter) (stack_name : string) (retries : nat) :
  forall w : World R,
  exists n last r',
    n <= retries
    /\ (last = Pending -> n = retries)
    /\ run (poll env w8 stack_name retries) w
       = (wait_result w8 last, advance w (status_reads stack_name n last) r').
Proof.
  induction retries as [| k IH]; intros w.
  - unfold run, poll, bind, describe_stacks.
    destruct (svc_describe_stacks env (remote w) stack_name) as [st r'] eqn:Hd.
    exists 0, st, r'. split; [lia |]. split; [reflexivity |].
    destruct st; reflexivity.
  - unfold run. cbn [poll]. unfold bind at 1. unfold describe_stacks at 1.
    destruct (svc_describe_stacks env (remote w) stack_name) as [st r1] eqn:Hd.
    destruct st.
    + destruct (IH (advance w [EvDescribeStacks stack_name Pending] r1))
        as (n & last & r' & Hn & Hlast & Hrun).
      exists (S n), last, r'. split; [lia |].
      split; [intros H; rewrite (Hlast H); reflexivity |].
      unfold run in Hrun. unfold advance at 1 in Hrun. rewrite Hrun.
      rewrite advance_advance. reflexivity.
    + exists 0, Succeeded, r1. split; [lia |]. split; [discriminate |].
      reflexivity.
    + exists 0, Failed, r1. split; [lia |]. split; [discriminate |].
      reflexivity.
Qed.

(** *** The whole function *)

Lemma run_bind {A B} (m : M R A) (k : A -> M R B) (w : World R) :
  run (bind m k) w
  = match run m w with
    | (Ok a, w1) => run (k a) w1
    | (Raise e, w1) => (Raise e, w1)
    end.
Proof. reflexivity. Qed.

Lemma run_log (ev : event) (w : World R) :
  run (log ev) w = (Ok tt, advance w [ev] (remote w)).
Proof. reflexivity. Qed.

Lemma wait_run (attempts : nat) (stack_name : string) (w : World R) :
  exists n last r',
    n <= attempts - 1
    /\ run (wait env (mkWaiter "stack_create_complete" attempts) stack_name) w
       = (wait_result (mkWaiter "stack_create_complete" attempts) last,
          advance w (EvWait stack_name :: status_reads stack_name n last) r').
Proof.
  unfold wait. rewrite run_bind, run_log.
  destruct (poll_run (mkWaiter "stack_create_complete" attempts) stack_name
              (attempts - 1) (advance w [EvWait stack_name] (remote w)))
    as (n & last & r' & Hn & _ & Hrun).
  exists n, last, r'. split; [exact Hn |].
  cbn [max_attempts]. rewrite Hrun, advance_advance. reflexivity.
Qed.

Lemma run_ret {A} (a : A) (w : World R) : run (ret a) w = (Ok a, w).
Proof. reflexivity. Qed.

Lemma run_raise {A} (e : exn) (w : World R) :
  run (raise e : M R A) w = (Raise e, w).
Proof. reflexivity. Qed.

Lemma remote_advance (w : World R) (evs : list event) (r : R) :
  remote (advance w evs r) = r.
Proof. reflexivity. Qed.

Lemma run_create_stack (c : client) (n body : string) (caps : list string)
    (w : World R) :
  run (create_stack env c n body caps) w
  = match svc_create_stack env (remote w) n body caps with
    | (inl e, r) => (Raise e, advance w [EvCreateStack n body caps] r)
    | (inr response, r) =>
        (Ok response, advance w [EvCreateStack n body caps] r)
    end.
Proof.
  unfold create_stack. rewrite run_bind, run_log. unfold run.
  rewrite remote_advance.
  destruct (svc_create_stack env (remote w) n body caps) as [[e | d] r];
    reflexivity.
Qed.

Lemma run_print (line : string) (w : World R) :
  run (print line) w
  = (Ok tt, mkWorld (trace w ++ [EvPrint line]) (open_files w)
                    (stdout w ++ [line]) (remote w)).
Proof. reflexivity. Qed.

Ltac run_step :=
  repeat progress
    rewrite ?run_bind, ?run_log, ?run_ret, ?run_raise, ?run_create_stack,
      ?advance_advance, ?remote_advance.

Lemma deploy_stack_run (stack_name path : string) (w : World R) :
  deploy_run env stack_name path w (run (deploy_stack env stack_name path) w).
Proof.
  unfold deploy_stack. rewrite run_bind.
  destruct (open_errno (fs env path)) as [errno |] eqn:Herrno.
  { rewrite (with_open_refused path w Herrno). now apply run_open_raises. }
  destruct (read_failure path (fs env path)) as [e |] eqn:Hfail.
  { rewrite (with_open_damaged path w Hfail). now apply run_read_raises. }
  destruct (fs env path) as [| | | | | body] eqn:Hfs; try discriminate.
  rewrite (with_open_text path w Hfs).
  set (fd := fresh_fd (open_files w)).
  (* client = boto3.client('cloudformation') *)
  rewrite run_bind. unfold boto3_client. run_step.
  destruct (client_factory env "cloudformation") as [e |] eqn:Hclient;
    run_step.
  { now apply run_client_raises with (body := body). }
  (* response = client.create_stack(...) *)
  destruct (svc_create_stack env (remote w) stack_name body ["CAPABILITY_IAM"])
    as [[e | response] r] eqn:Hcreate; run_step.
  { rewrite <- app_assoc. now apply run_create_raises. }
  (* waiter = client.get_waiter('stack_create_complete') *)
  unfold get_waiter. run_step.
  destruct (waiter_table env "stack_create_complete") as [attempts |] eqn:Hw8;
    run_step.
  2:{ rewrite <- !app_assoc.
      change (read_calls path fd ++ [EvClient "cloudformation"]
              ++ [EvCreateStack stack_name body ["CAPABILITY_IAM"]]
              ++ [EvGetWaiter "stack_create_complete"])
        with (request_calls stack_name path body fd
              ++ [EvGetWaiter "stack_create_complete"]).
      now apply run_get_waiter_raises with (response := response). }
  (* waiter.wait(StackName=stack_name) *)
  match goal with
  | |- context [run (wait env _ stack_name) ?w0] =>
      destruct (wait_run attempts stack_name w0)
        as (n & last & r' & Hn & Hwait)
  end.
  rewrite Hwait. run_step.
  rewrite <- !app_assoc.
  change (read_calls path fd ++ [EvClient "cloudformation"]
          ++ [EvCreateStack stack_name body ["CAPABILITY_IAM"]]
          ++ [EvGetWaiter "stack_create_complete"]
          ++ EvWait stack_name :: status_reads stack_name n last)
    with (request_calls stack_name path body fd
          ++ wait_calls stack_name n last).
  destruct last; cbn [wait_result].
  - eapply run_wait_raises; eauto; first [discriminate | reflexivity].
  - cbv beta iota. run_step. rewrite run_print. cbv beta iota.
    run_step. unfold advance. cbn [trace open_files stdout remote].
    rewrite <- !app_assoc.
    eapply run_returns; eauto.
  - eapply run_wait_raises; eauto; first [discriminate | reflexivity].
Qed.

(** *** Traces *)

Lemma events_since_app (w w' : World R) (evs : list event) :
  trace w' = trace w ++ evs -> events_since w w' = evs.
Proof.
  intros H. unfold events_since. rewrite H.
  rewrite skipn_app, skipn_all, Nat.sub_diag. reflexivity.
Qed.

Lemma events_since_advance (w : World R) (evs : list event) (r : R) :
  events_since w (advance w evs r) = evs.
Proof. now apply events_since_app. Qed.

Lemma count_app (p : event -> bool) (a b : list event) :
  count p (a ++ b) = count p a + count p b.
Proof. unfold count. now rewrite filter_app, length_app. Qed.

Lemma count_cons (p : event -> bool) (ev : event) (t : list event) :
  count p (ev :: t) = (if p ev then 1 else 0) + count p t.
Proof. unfold count. cbn [filter]. now destruct (p ev). Qed.

Lemma count_nil (p : event -> bool) : count p [] = 0.
Proof. reflexivity. Qed.

Lemma count_status_reads (p : event -> bool) (b : bool) (stack_name : string)
    (n : nat) (last : status) :
  (forall st, p (EvDescribeStacks stack_name st) = b) ->
  count p (status_reads stack_name n last) = if b then S n else 0.
Proof.
  intros Hp. unfold status_reads. rewrite count_app, count_cons, count_nil.
  rewrite (Hp last).
  induction n as [| k IH]; cbn [repeat].
  - rewrite count_nil. now destruct b.
  - rewrite count_cons, (Hp Pending). destruct b; lia.
Qed.

Lemma in_status_reads (ev : event) (stack_name : string) (n : nat)
    (last : status) :
  In ev (status_reads stack_name n last) ->
  exists st, ev = EvDescribeStacks stack_name st.
Proof.
  unfold status_reads. rewrite in_app_iff. intros [Hin | [Heq | []]].
  - apply repeat_spec in Hin. now exists Pending.
  - now exists last.
Qed.

Lemma create_requests_app (a b : list event) :
  create_requests (a ++ b) = create_requests a ++ create_requests b.
Proof.
  induction a as [| ev a IH]; [reflexivity |].
  destruct ev; cbn [app create_requests]; rewrite IH; reflexivity.
Qed.

Lemma wait_targets_app (a b : list event) :
  wait_targets (a ++ b) = wait_targets a ++ wait_targets b.
Proof.
  induction a as [| ev a IH]; [reflexivity |].
  destruct ev; cbn [app wait_targets]; rewrite IH; reflexivity.
Qed.

Lemma create_requests_status_reads (stack_name : string) (n : nat)
    (last : status) :
  create_requests (status_reads stack_name n last) = [].
Proof.
  unfold status_reads. rewrite create_requests_app.
  induction n as [| k IH]; [reflexivity | exact IH].
Qed.

Lemma wait_targets_status_reads (stack_name : string) (n : nat)
    (last : status) :
  wait_targets (status_reads stack_name n last) = [].
Proof.
  unfold status_reads. rewrite wait_targets_app.
  induction n as [| k IH]; [reflexivity | exact IH].
Qed.

(** Normalises the trace of a finished run to an explicit list of calls
    around the status reads. *)
Ltac settle :=
  cbn [fst snd];
  rewrite ?events_since_advance;
  try (erewrite events_since_app by (cbn [trace]; reflexivity));
  cbn [stdout open_files remote trace advance].

Ltac tally :=
  unfold request_calls, read_calls, wait_calls;
  repeat first
    [ rewrite count_app
    | rewrite count_cons
    | rewrite count_nil
    | rewrite (@count_status_reads _ false) by (intros; reflexivity)
    | rewrite (@count_status_reads _ true) by (intros; reflexivity) ];
  cbn.

Lemma read_failure_is_local (path : string) (node : file_node) (e : exn) :
  read_failure path node = Some e -> is_local_io_error e = true.
Proof. destruct node; cbn; intros H; inversion H; reflexivity. Qed.

(** Closes the cases of a run in which a file known to read does not. *)
Ltac file_reads Hfs :=
  try match goal with
      | H : open_errno (fs _ _) = Some _ |- _ =>
          rewrite Hfs in H; discriminate
      | H : read_failure _ (fs _ _) = Some _ |- _ =>
          rewrite Hfs in H; discriminate
      end.

Ltac by_cases_on_run stack_name path w :=
  unfold deploy_calls, deploy_world, deploy_result, read_step in *;
  destruct (deploy_stack_run stack_name path w).

(** ** The claims *)

(** C1: the success line is printed only after the wait has returned on a
    success terminal status: the call right before it is a status read
    answered [Succeeded], and nothing was printed earlier.  A run that
    ends in an exception prints nothing; and an exception raised by the
    file read, by the creation request or by the wait is the exception
    [deploy_stack] ends with, in the world that step left. *)
Theorem success_line_only_after_successful_wait
    (stack_name path : string) (w : World R) :
  (forall line,
      In (EvPrint line) (deploy_calls env stack_name path w) ->
      deploy_result env stack_name path w = Ok PyNone
      /\ exists before,
           deploy_calls env stack_name path w
           = before ++ [EvDescribeStacks stack_name Succeeded;
                        EvPrint (success_line stack_name)]
           /\ count is_print before = 0)
  /\ (forall e,
        deploy_result env stack_name path w = Raise e ->
        count is_print (deploy_calls env stack_name path w) = 0
        /\ stdout (deploy_world env stack_name path w) = stdout w)
  /\ (forall e w1,
        run (read_step env path) w = (Raise e, w1) ->
        run (deploy_stack env stack_name path) w = (Raise e, w1))
  /\ (forall body w1 c w2 e w3,
        run (read_step env path) w = (Ok body, w1) ->
        run (boto3_client env "cloudformation") w1 = (Ok c, w2) ->
        run (create_stack env c stack_name body ["CAPABILITY_IAM"]) w2
        = (Raise e, w3) ->
        run (deploy_stack env stack_name path) w = (Raise e, w3))
  /\ (forall body w1 c w2 response w3 w8 w4 e w5,
        run (read_step env path) w = (Ok body, w1) ->
        run (boto3_client env "cloudformation") w1 = (Ok c, w2) ->
        run (create_stack env c stack_name body ["CAPABILITY_IAM"]) w2
        = (Ok response, w3) ->
        run (get_waiter env c "stack_create_complete") w3 = (Ok w8, w4) ->
        run (wait env w8 stack_name) w4 = (Raise e, w5) ->
        run (deploy_stack env stack_name path) w = (Raise e, w5)).
Proof.
  split; [| split; [| split; [| split]]].
  - intros line Hin. by_cases_on_run stack_name path w; revert Hin; settle;
      unfold request_calls, read_calls, wait_calls;
      rewrite ?in_app_iff; cbn [In]; intros Hin.
    1-5: (repeat destruct Hin as [Hin | Hin]); try discriminate; try contradiction.
    + repeat (destruct Hin as [Hin | Hin]; try discriminate; try contradiction).
      apply in_status_reads in Hin as [st Hst]. discriminate.
    + split; [reflexivity |].
      exists ([EvOpen path "r"; EvRead (fresh_fd (open_files w));
               EvClose (fresh_fd (open_files w));
               EvClient "cloudformation";
               EvCreateStack stack_name body ["CAPABILITY_IAM"];
               EvGetWaiter "stack_create_complete"; EvWait stack_name]
              ++ repeat (EvDescribeStacks stack_name Pending) n).
      split.
      * unfold status_reads. cbn [app]. rewrite <- !app_assoc. reflexivity.
      * rewrite count_app. cbn.
        clear. induction n as [| k IH]; [reflexivity |].
        cbn [repeat]. rewrite count_cons. exact IH.
  - intros e He. by_cases_on_run stack_name path w; revert He; settle;
      intros He; try discriminate; (split; [tally; reflexivity | reflexivity]).
  - intros e w1 Hread. unfold deploy_stack. fold (read_step env path).
    rewrite run_bind, Hread. reflexivity.
  - intros body w1 c w2 e w3 Hread Hclient Hcreate.
    unfold deploy_stack. fold (read_step env path).
    rewrite run_bind, Hread. cbv beta iota.
    rewrite run_bind, Hclient. cbv beta iota.
    rewrite run_bind, Hcreate. reflexivity.
  - intros body w1 c w2 response w3 w8 w4 e w5 Hread Hclient Hcreate Hw8 Hwait.
    unfold deploy_stack. fold (read_step env path).
    rewrite run_bind, Hread. cbv beta iota.
    rewrite run_bind, Hclient. cbv beta iota.
    rewrite run_bind, Hcreate. cbv beta iota.
    rewrite run_bind, Hw8. cbv beta iota.
    rewrite run_bind, Hwait. reflexivity.
Qed.

(** C2: when the template cannot be read (the file is missing, may not be
    opened, or fails under [read]), [deploy_stack] raises an error of the
    local file system and makes no remote call: no client is built, no
    creation request is sent, and the remote service is left as it was. *)
Theorem unreadable_template_makes_no_remote_call
    (stack_name path : string) (w : World R) :
  reads (fs env path) = false ->
  (exists e,
      deploy_result env stack_name path w = Raise e
      /\ is_local_io_error e = true)
  /\ (forall ev,
        In ev (deploy_calls env stack_name path w) -> is_remote ev = false)
  /\ count is_client (deploy_calls env stack_name path w) = 0
  /\ count is_create_stack (deploy_calls env stack_name path w) = 0
  /\ remote (deploy_world env stack_name path w) = remote w.
Proof.
  intros Hreads.
  by_cases_on_run stack_name path w;
    try match goal with
        | Hfs : fs env path = Text _ |- _ =>
            rewrite Hfs in Hreads; discriminate
        end;
    settle.
  - split; [eexists; split; reflexivity |].
    split; [| repeat split; reflexivity].
    intros ev [<- | []]. reflexivity.
  - split; [eexists; split; [reflexivity | eapply read_failure_is_local; eauto] |].
    split; [| repeat split; reflexivity].
    unfold read_calls. intros ev [<- | [<- | [<- | []]]]; reflexivity.
Qed.

(** C3: when the file reads, a client is built and the service refuses the
    creation request, [deploy_stack] ends right there with the refusal:
    the request is the last call it makes; no waiter is fetched, no wait
    is entered and no status is read. *)
Theorem rejected_creation_never_waits
    (stack_name path body : string) (w : World R) (e : exn) (r : R) :
  fs env path = Text body ->
  client_factory env "cloudformation" = None ->
  svc_create_stack env (remote w) stack_name body ["CAPABILITY_IAM"]
  = (inl e, r) ->
  deploy_result env stack_name path w = Raise e
  /\ deploy_calls env stack_name path w
     = [EvOpen path "r";
        EvRead (fresh_fd (open_files w));
        EvClose (fresh_fd (open_files w));
        EvClient "cloudformation";
        EvCreateStack stack_name body ["CAPABILITY_IAM"]]
  /\ count is_get_waiter (deploy_calls env stack_name path w) = 0
  /\ count is_wait (deploy_calls env stack_name path w) = 0
  /\ count is_status_read (deploy_calls env stack_name path w) = 0.
Proof.
  intros Hfs Hclient Hcreate.
  by_cases_on_run stack_name path w; file_reads Hfs; try congruence.
  assert (body0 = body) by congruence. subst body0.
  assert (e0 = e) by congruence. subst e0.
  settle. repeat split; reflexivity.
Qed.

(** C4: when the file reads, the creation requests of the run are at most
    one; it is sent as soon as a client could be built, and it names the
    given stack, carries the contents of the file as they were read and
    acknowledges the one capability [CAPABILITY_IAM]. *)
Theorem creation_request_carries_name_template_capability
    (stack_name path body : string) (w : World R) :
  fs env path = Text body ->
  create_requests (deploy_calls env stack_name path w)
  = match client_factory env "cloudformation" with
    | None => [(stack_name, body, ["CAPABILITY_IAM"])]
    | Some _ => []
    end.
Proof.
  intros Hfs.
  by_cases_on_run stack_name path w; file_reads Hfs; try congruence;
    assert (body0 = body) by congruence; subst body0;
    match goal with
    | H : client_factory env _ = _ |- _ => rewrite H
    end;
    settle;
    unfold request_calls, read_calls, wait_calls;
    rewrite ?create_requests_app, ?create_requests_status_reads;
    reflexivity.
Qed.

(** C5: a run that returns has made, in this order and nothing else: one
    open, one read and one close of the template; one client; one creation
    request; one waiter lookup and one wait, which issued one status read
    or more (all answered [Pending] but the last); one print.  No call
    occurs twice, so no step was tried again. *)
Theorem successful_run_has_exactly_these_effects
    (stack_name path : string) (w : World R) (v : pyvalue) :
  deploy_result env stack_name path w = Ok v ->
  exists body n,
    fs env path = Text body
    /\ deploy_calls env stack_name path w
       = [EvOpen path "r";
          EvRead (fresh_fd (open_files w));
          EvClose (fresh_fd (open_files w));
          EvClient "cloudformation";
          EvCreateStack stack_name body ["CAPABILITY_IAM"];
          EvGetWaiter "stack_create_complete";
          EvWait stack_name]
         ++ repeat (EvDescribeStacks stack_name Pending) n
         ++ [EvDescribeStacks stack_name Succeeded;
             EvPrint (success_line stack_name)]
    /\ count is_open (deploy_calls env stack_name path w) = 1
    /\ count is_read (deploy_calls env stack_name path w) = 1
    /\ count is_close (deploy_calls env stack_name path w) = 1
    /\ count is_client (deploy_calls env stack_name path w) = 1
    /\ count is_create_stack (deploy_calls env stack_name path w) = 1
    /\ count is_get_waiter (deploy_calls env stack_name path w) = 1
    /\ count is_wait (deploy_calls env stack_name path w) = 1
    /\ count is_status_read (deploy_calls env stack_name path w) = S n
    /\ count is_print (deploy_calls env stack_name path w) = 1
    /\ stdout (deploy_world env stack_name path w)
       = stdout w ++ [success_line stack_name].
Proof.
  intros Hok.
  by_cases_on_run stack_name path w; try discriminate.
  exists body, n. settle.
  split; [assumption |].
  split.
  { unfold request_calls, read_calls, wait_calls, status_reads.
    cbn [app]. rewrite <- !app_assoc. reflexivity. }
  repeat split; first [reflexivity | tally; lia].
Qed.

(** C6: a run that returns has written one line to the console, the text
    [Stack {name} created successfully.] with the given name in the place
    of [{name}]; the name is therefore part of the output. *)
Theorem success_prints_one_line_naming_the_stack
    (stack_name path : string) (w : World R) (v : pyvalue) :
  deploy_result env stack_name path w = Ok v ->
  stdout (deploy_world env stack_name path w)
  = stdout w ++ [("Stack " ++ stack_name ++ " created successfully.")%string]
  /\ filter is_print (deploy_calls env stack_name path w)
     = [EvPrint ("Stack " ++ stack_name ++ " created successfully.")]
  /\ exists before after : string,
       ("Stack " ++ stack_name ++ " created successfully.")%string
       = (before ++ stack_name ++ after)%string.
Proof.
  intros Hok.
  by_cases_on_run stack_name path w; try discriminate.
  settle. split; [reflexivity |]. split.
  - unfold request_calls, read_calls, wait_calls, status_reads.
    rewrite !filter_app. cbn [filter is_print app].
    assert (Hnone : filter is_print (repeat (EvDescribeStacks stack_name Pending) n)
                    = []).
    { clear. induction n as [| k IH]; [reflexivity | exact IH]. }
    rewrite Hnone. reflexivity.
  - exists "Stack ", " created successfully.". reflexivity.
Qed.

(** Splits a membership in the calls of a finished run into its cases. *)
Ltac sift H :=
  unfold request_calls, read_calls, wait_calls in H;
  rewrite ?in_app_iff in H; cbn [In] in H;
  repeat (destruct H as [H | H]);
  try discriminate; try contradiction;
  try (apply in_status_reads in H as [? H]; try discriminate).

(** C7: whatever the run, a creation request, a wait and a status read
    all name the stack that was given; when a wait is entered there has
    been one creation request, under the same name. *)
Theorem creation_and_wait_name_the_same_stack
    (stack_name path : string) (w : World R) :
  (forall n b c,
      In (EvCreateStack n b c) (deploy_calls env stack_name path w) ->
      n = stack_name)
  /\ (forall n,
        In (EvWait n) (deploy_calls env stack_name path w) -> n = stack_name)
  /\ (forall n st,
        In (EvDescribeStacks n st) (deploy_calls env stack_name path w) ->
        n = stack_name)
  /\ (wait_targets (deploy_calls env stack_name path w) = []
      \/ (wait_targets (deploy_calls env stack_name path w) = [stack_name]
          /\ map (fun q => fst (fst q))
                 (create_requests (deploy_calls env stack_name path w))
             = [stack_name])).
Proof.
  by_cases_on_run stack_name path w; settle;
    (split; [intros n0 b c Hin; sift Hin; congruence |]);
    (split; [intros n0 Hin; sift Hin; congruence |]);
    (split; [intros n0 st Hin; sift Hin; congruence |]);
    unfold request_calls, read_calls, wait_calls;
    rewrite ?wait_targets_app, ?create_requests_app,
      ?wait_targets_status_reads, ?create_requests_status_reads;
    cbn; auto.
Qed.

Lemma filter_status_reads (p : event -> bool) (stack_name : string)
    (n : nat) (last : status) :
  (forall st, p (EvDescribeStacks stack_name st) = false) ->
  filter p (status_reads stack_name n last) = [].
Proof.
  intros Hp. unfold status_reads. rewrite filter_app. cbn [filter].
  rewrite (Hp last), app_nil_r.
  induction n as [| k IH]; [reflexivity |].
  cbn [repeat filter]. rewrite (Hp Pending). exact IH.
Qed.

(** Every run opens the template once, whatever comes of it. *)
Lemma deploy_opens_once (stack_name path : string) (w : World R) :
  filter is_open (deploy_calls env stack_name path w) = [EvOpen path "r"].
Proof.
  by_cases_on_run stack_name path w; settle;
    unfold request_calls, read_calls, wait_calls;
    rewrite ?filter_app;
    rewrite ?filter_status_reads by (intros; reflexivity);
    reflexivity.
Qed.

(** C8: once [open] has handed out a descriptor, the [with] statement ends
    with that descriptor closed, whether [read] returned the contents or
    raised: the close follows the read at once, the process holds the
    same descriptors as before the statement, and so it does when
    [deploy_stack] ends. *)
Theorem template_handle_is_always_released
    (stack_name path : string) (w : World R) :
  open_errno (fs env path) = None ->
  (exists w0,
      run (open env path "r") w
      = (Ok (mkFile (fresh_fd (open_files w)) path), w0)
      /\ In (fresh_fd (open_files w)) (open_files w0))
  /\ events_since w (snd (run (read_step env path) w))
     = [EvOpen path "r";
        EvRead (fresh_fd (open_files w));
        EvClose (fresh_fd (open_files w))]
  /\ open_files (snd (run (read_step env path) w)) = open_files w
  /\ ~ In (fresh_fd (open_files w))
         (open_files (snd (run (read_step env path) w)))
  /\ (forall e,
        read_failure path (fs env path) = Some e ->
        fst (run (read_step env path) w) = Raise e)
  /\ (forall body,
        fs env path = Text body ->
        fst (run (read_step env path) w) = Ok body)
  /\ firstn 3 (deploy_calls env stack_name path w)
     = [EvOpen path "r";
        EvRead (fresh_fd (open_files w));
        EvClose (fresh_fd (open_files w))]
  /\ open_files (deploy_world env stack_name path w) = open_files w.
Proof.
  intros Hopens.
  split.
  { unfold open. rewrite run_bind, run_log.
    destruct (fs env path); try discriminate; cbv beta iota;
      (eexists; split; [reflexivity | left; reflexivity]). }
  assert (Hstep :
    exists r, run (read_step env path) w
              = (r, advance w (read_calls path (fresh_fd (open_files w)))
                            (remote w))
              /\ (forall e, read_failure path (fs env path) = Some e ->
                            r = Raise e)
              /\ (forall body, fs env path = Text body -> r = Ok body)).
  { unfold read_step.
    destruct (read_failure path (fs env path)) as [e |] eqn:Hfail.
    - rewrite (with_open_damaged path w Hfail). eexists.
      split; [reflexivity |]. split; [congruence |].
      intros body Hbody. rewrite Hbody in Hfail. discriminate.
    - destruct (fs env path) as [| | | | | body] eqn:Hfs; try discriminate.
      rewrite (with_open_text path w Hfs). eexists.
      split; [reflexivity |]. split; [discriminate |].
      intros body0 Hbody. congruence. }
  destruct Hstep as (r & Hrun & Hdamaged & Htext). rewrite Hrun.
  settle.
  split; [reflexivity |]. split; [reflexivity |].
  split; [apply fresh_fd_not_held |].
  split; [exact Hdamaged |]. split; [exact Htext |].
  clear Hrun Hdamaged Htext.
  by_cases_on_run stack_name path w; try congruence; settle;
    unfold request_calls, read_calls; split; reflexivity.
Qed.

(** C9: run as the program ([__name__] is [__main__]), the module makes
    the one call [deploy_stack('my-iac-stack', 'cloudformation/main.yaml')]:
    it leaves the world that call leaves, fails exactly when the call
    fails, and opens that one path once.  The command line plays no part;
    imported under another name, the module calls nothing. *)
Theorem entry_point_deploys_the_fixed_stack_once
    (argv : list string) (w : World R) :
  snd (run (module_main env "__main__" argv) w)
  = deploy_world env "my-iac-stack" "cloudformation/main.yaml" w
  /\ fst (run (module_main env "__main__" argv) w)
     = match deploy_result env "my-iac-stack" "cloudformation/main.yaml" w with
       | Ok _ => Ok tt
       | Raise e => Raise e
       end
  /\ filter is_open
       (events_since w (snd (run (module_main env "__main__" argv) w)))
     = [EvOpen "cloudformation/main.yaml" "r"]
  /\ (forall argv',
        run (module_main env "__main__" argv') w
        = run (module_main env "__main__" argv) w)
  /\ (forall dunder_name,
        String.eqb dunder_name "__main__" = false ->
        run (module_main env dunder_name argv) w = (Ok tt, w)).
Proof.
  assert (Hmain :
    run (module_main env "__main__" argv) w
    = (match deploy_result env "my-iac-stack" "cloudformation/main.yaml" w with
       | Ok _ => Ok tt
       | Raise e => Raise e
       end,
       deploy_world env "my-iac-stack" "cloudformation/main.yaml" w)).
  { unfold module_main, deploy_result, deploy_world.
    cbn [String.eqb Ascii.eqb Bool.eqb].
    rewrite run_bind.
    destruct (run (deploy_stack env "my-iac-stack" "cloudformation/main.yaml") w)
      as [[v | e] w1]; reflexivity. }
  assert (Hargv : forall argv',
             run (module_main env "__main__" argv') w
             = run (module_main env "__main__" argv) w)
    by (intros argv'; reflexivity).
  rewrite Hmain in *. cbn [fst snd].
  split; [reflexivity |]. split; [reflexivity |].
  split; [apply deploy_opens_once |].
  split; [exact Hargv |].
  intros dunder_name Hname. unfold module_main.
  rewrite Hname. reflexivity.
Qed.

(** ** Further properties of [deploy_stack] *)

Lemma own_calls_app (a b : list event) :
  own_calls (a ++ b) = own_calls a ++ own_calls b.
Proof. unfold own_calls. apply filter_app. Qed.

Lemma own_calls_status_reads (stack_name : string) (n : nat) (last : status) :
  own_calls (status_reads stack_name n last) = [].
Proof.
  unfold own_calls. apply filter_status_reads. intros st. reflexivity.
Qed.

(** A list that starts with [a], none of which satisfies [p], can only be
    split at an element satisfying [p] beyond [a]. *)
Lemma split_beyond (p : event -> bool) (a b pre post : list event)
    (ev : event) :
  (forall x, In x a -> p x = false) ->
  p ev = true ->
  a ++ b = pre ++ ev :: post ->
  exists pre', pre = a ++ pre'.
Proof.
  revert pre. induction a as [| x a IH]; intros pre Ha Hev Heq.
  - exists pre. reflexivity.
  - destruct pre as [| y pre]; cbn [app] in Heq; inversion Heq; subst.
    + rewrite (Ha ev (or_introl eq_refl)) in Hev. discriminate.
    + destruct (IH pre) as [pre' ->]; auto.
      * intros z Hz. apply Ha. right. exact Hz.
      * exists pre'. reflexivity.
Qed.


(** X2: when [open] refuses the path, the body of the [with] statement is
    not entered and its exit is not run: the call to [open] is the only
    call of the run, the exception is the one [open] raised, and nothing
    else in the world has changed. *)
Theorem refused_open_is_the_only_call
    (stack_name path : string) (errno : os_error) (w : World R) :
  open_errno (fs env path) = Some errno ->
  run (deploy_stack env stack_name path) w
  = (Raise (OSError errno path),
     mkWorld (trace w ++ [EvOpen path "r"])
             (open_files w) (stdout w) (remote w)).
Proof.
  intros Hrefused.
  destruct (deploy_stack_run stack_name path w);
    try match goal with
        | H : read_failure _ (fs env path) = Some _ |- _ =>
            destruct (fs env path); discriminate
        | H : fs env path = Text _ |- _ =>
            rewrite H in Hrefused; discriminate
        end.
  assert (errno0 = errno) by congruence. subst errno0. reflexivity.
Qed.

(** X3: when the template reads but no client can be built,
    [deploy_stack] ends with the exception of [boto3.client]: the file
    has been read and closed, no request has left for the service, whose
    state is untouched, and nothing is printed. *)
Theorem failed_client_sends_nothing
    (stack_name path body : string) (e : exn) (w : World R) :
  fs env path = Text body ->
  client_factory env "cloudformation" = Some e ->
  run (deploy_stack env stack_name path) w
  = (Raise e,
     mkWorld (trace w
              ++ [EvOpen path "r";
                  EvRead (fresh_fd (open_files w));
                  EvClose (fresh_fd (open_files w));
                  EvClient "cloudformation"])
             (open_files w) (stdout w) (remote w)).
Proof.
  intros Hfs Hclient.
  destruct (deploy_stack_run stack_name path w); file_reads Hfs;
    try congruence.
  assert (e0 = e) by congruence. subst e0. reflexivity.
Qed.

(** X4: no run, failing or not, makes a call of [deploy_stack] twice:
    the template is opened once; it is read, a client is built, a
    creation request is sent, a waiter is fetched, a wait is entered and
    a line is printed at most once each; and the file is closed as many
    times as it is read. *)
Theorem no_call_is_made_twice (stack_name path : string) (w : World R) :
  count is_open (deploy_calls env stack_name path w) = 1
  /\ count is_read (deploy_calls env stack_name path w) <= 1
  /\ count is_close (deploy_calls env stack_name path w)
     = count is_read (deploy_calls env stack_name path w)
  /\ count is_client (deploy_calls env stack_name path w) <= 1
  /\ count is_create_stack (deploy_calls env stack_name path w) <= 1
  /\ count is_get_waiter (deploy_calls env stack_name path w) <= 1
  /\ count is_wait (deploy_calls env stack_name path w) <= 1
  /\ count is_print (deploy_calls env stack_name path w) <= 1.
Proof.
  by_cases_on_run stack_name path w; settle;
    repeat split; tally; lia.
Qed.

(** X5: the calls of every run follow the source order.  Leaving the
    status reads of the waiter aside, they are the first so many of: open,
    read, close, client, creation request, waiter lookup, wait, print --
    with the constants of the source as arguments -- and a status read
    happens only once the wait has been entered. *)
Theorem calls_follow_the_source_order
    (stack_name path : string) (w : World R) :
  (exists body rest,
      own_calls (deploy_calls env stack_name path w) ++ rest
      = script_calls stack_name path body (fresh_fd (open_files w)))
  /\ (forall pre ev post,
        deploy_calls env stack_name path w = pre ++ ev :: post ->
        is_status_read ev = true ->
        In (EvWait stack_name) pre).
Proof.
  split.
  - by_cases_on_run stack_name path w; settle;
      unfold request_calls, read_calls, wait_calls;
      rewrite ?own_calls_app, ?own_calls_status_reads;
      unfold script_calls;
      try (exists body); try (exists "");
      eexists; cbn; reflexivity.
  - intros pre ev post Hsplit Hev.
    by_cases_on_run stack_name path w; revert Hsplit; settle;
      intros Hsplit.
    1-5:
      (assert (Hin : In ev (pre ++ ev :: post))
         by (apply in_elt);
       rewrite <- Hsplit in Hin; sift Hin; subst ev; discriminate).
    + unfold wait_calls in Hsplit. rewrite app_assoc in Hsplit.
      apply split_beyond with (p := is_status_read) in Hsplit; auto.
      * destruct Hsplit as [pre' ->]. rewrite !in_app_iff. cbn [In]. auto.
      * intros x Hx. sift Hx; subst x; reflexivity.
    + unfold wait_calls in Hsplit. rewrite !app_assoc in Hsplit.
      rewrite <- (app_assoc _ (status_reads _ _ _)) in Hsplit.
      apply split_beyond with (p := is_status_read) in Hsplit; auto.
      * destruct Hsplit as [pre' ->]. rewrite !in_app_iff. cbn [In]. auto.
      * intros x Hx. sift Hx; subst x; reflexivity.
Qed.


End Runs.

(** ** The response to the creation request *)

Lemma poll_with_response {R} (f : dict -> dict) (env : Env R) (w8 : waiter)
    (stack_name : string) (retries : nat) :
  poll (with_response f env) w8 stack_name retries
  = poll env w8 stack_name retries.
Proof.
  induction retries as [| k IH]; cbn [poll]; [reflexivity |].
  rewrite IH. reflexivity.
Qed.

(** C10: [deploy_stack] returns [None], and what it does is the same
    whatever the service puts in its response to the creation request:
    rewriting every response leaves the result, the calls, the console and
    the remote state of every run unchanged. *)
Theorem creation_response_is_discarded {R} (env : Env R) (f : dict -> dict)
    (stack_name path : string) (w : World R) :
  (forall v, deploy_result env stack_name path w = Ok v -> v = PyNone)
  /\ run (deploy_stack (with_response f env) stack_name path) w
     = run (deploy_stack env stack_name path) w.
Proof.
  split.
  - intros v Hv. unfold deploy_result in Hv.
    destruct (deploy_stack_run env stack_name path w);
      cbn [fst] in Hv; congruence.
  - unfold deploy_stack. rewrite !run_bind.
    change (with_open (with_response f env) path "r"
              (fun file => file_read (with_response f env) file))
      with (with_open env path "r" (fun file => file_read env file)).
    destruct (run (with_open env path "r" (fun file => file_read env file)) w)
      as [[body | e] w1]; [| reflexivity].
    rewrite !run_bind.
    change (boto3_client (with_response f env) "cloudformation")
      with (boto3_client env "cloudformation").
    destruct (run (boto3_client env "cloudformation") w1)
      as [[c | e] w2]; [| reflexivity].
    rewrite !run_bind, !run_create_stack.
    cbn [svc_create_stack with_response].
    destruct (svc_create_stack env (remote w2) stack_name body
                ["CAPABILITY_IAM"]) as [[e | response] r];
      [reflexivity |].
    rewrite !run_bind.
    change (get_waiter (with_response f env) c "stack_create_complete")
      with (get_waiter env c "stack_create_complete").
    destruct (run (get_waiter env c "stack_create_complete")
                (advance w2 [EvCreateStack stack_name body ["CAPABILITY_IAM"]] r))
      as [[w8 | e] w4]; [| reflexivity].
    rewrite !run_bind. unfold wait. rewrite !run_bind.
    rewrite poll_with_response. reflexivity.
Qed.

(** ** The claims at work on the demo service *)

(** Picks the element of an explicit list that is asked for. *)
Ltac pick := vm_compute; repeat first [left; reflexivity | right].

Lemma success_line_only_after_successful_wait_witness :
  In (EvPrint "Stack my-iac-stack created successfully.")
     (deploy_calls Demo.env "my-iac-stack" "cloudformation/main.yaml"
                   (Demo.boot []))
  /\ deploy_result Demo.env "my-iac-stack" "cloudformation/main.yaml"
                   (Demo.boot [])
     = Ok PyNone
  /\ deploy_result Demo.impatient "my-iac-stack" "cloudformation/main.yaml"
                   (Demo.boot [])
     = Raise (WaiterError "stack_create_complete" "Max attempts exceeded")
  /\ count is_print
       (deploy_calls Demo.impatient "my-iac-stack" "cloudformation/main.yaml"
                     (Demo.boot []))
     = 0.
Proof.
  assert (Hin :
    In (EvPrint "Stack my-iac-stack created successfully.")
       (deploy_calls Demo.env "my-iac-stack" "cloudformation/main.yaml"
                     (Demo.boot []))) by pick.
  assert (Hraise :
    deploy_result Demo.impatient "my-iac-stack" "cloudformation/main.yaml"
                  (Demo.boot [])
    = Raise (WaiterError "stack_create_complete" "Max attempts exceeded"))
    by reflexivity.
  split; [exact Hin |].
  split.
  - exact (proj1 (proj1 (@success_line_only_after_successful_wait
                           Demo.R Demo.env "my-iac-stack"
                           "cloudformation/main.yaml" (Demo.boot []))
                        _ Hin)).
  - split; [exact Hraise |].
    exact (proj1 (proj1 (proj2 (@success_line_only_after_successful_wait
                                  Demo.R Demo.impatient "my-iac-stack"
                                  "cloudformation/main.yaml" (Demo.boot [])))
                        _ Hraise)).
Defined.

Lemma unreadable_template_makes_no_remote_call_witness :
  reads (fs Demo.env "nowhere.yaml") = false
  /\ count is_client
       (deploy_calls Demo.env "my-iac-stack" "nowhere.yaml" (Demo.boot []))
     = 0
  /\ remote (deploy_world Demo.env "my-iac-stack" "nowhere.yaml" (Demo.boot []))
     = [].
Proof.
  split; [reflexivity |].
  destruct (@unreadable_template_makes_no_remote_call
              Demo.R Demo.env "my-iac-stack" "nowhere.yaml" (Demo.boot [])
              eq_refl)
    as (_ & _ & Hclient & _ & Hremote).
  split; [exact Hclient | exact Hremote].
Defined.

Lemma rejected_creation_never_waits_witness :
  fs Demo.env "cloudformation/main.yaml" = Text "Resources: {}"
  /\ client_factory Demo.env "cloudformation" = None
  /\ svc_create_stack Demo.env (remote (Demo.boot [("my-iac-stack", 0)]))
       "my-iac-stack" "Resources: {}" ["CAPABILITY_IAM"]
     = (inl (ClientError "AlreadyExistsException" "CreateStack"),
        [("my-iac-stack", 0)])
  /\ deploy_result Demo.env "my-iac-stack" "cloudformation/main.yaml"
       (Demo.boot [("my-iac-stack", 0)])
     = Raise (ClientError "AlreadyExistsException" "CreateStack")
  /\ count is_status_read
       (deploy_calls Demo.env "my-iac-stack" "cloudformation/main.yaml"
                     (Demo.boot [("my-iac-stack", 0)]))
     = 0.
Proof.
  split; [reflexivity |]. split; [reflexivity |]. split; [reflexivity |].
  destruct (@rejected_creation_never_waits
              Demo.R Demo.env "my-iac-stack" "cloudformation/main.yaml"
              "Resources: {}" (Demo.boot [("my-iac-stack", 0)])
              (ClientError "AlreadyExistsException" "CreateStack")
              [("my-iac-stack", 0)] eq_refl eq_refl eq_refl)
    as (Hresult & _ & _ & _ & Hreads).
  split; [exact Hresult | exact Hreads].
Defined.

Lemma creation_request_carries_name_template_capability_witness :
  fs Demo.env "cloudformation/main.yaml" = Text "Resources: {}"
  /\ create_requests
       (deploy_calls Demo.env "my-iac-stack" "cloudformation/main.yaml"
                     (Demo.boot []))
     = [("my-iac-stack", "Resources: {}", ["CAPABILITY_IAM"])].
Proof.
  split; [reflexivity |].
  exact (@creation_request_carries_name_template_capability
           Demo.R Demo.env "my-iac-stack" "cloudformation/main.yaml"
           "Resources: {}" (Demo.boot []) eq_refl).
Defined.

Lemma successful_run_has_exactly_these_effects_witness :
  deploy_result Demo.env "my-iac-stack" "cloudformation/main.yaml"
                (Demo.boot [])
  = Ok PyNone
  /\ count is_create_stack
       (deploy_calls Demo.env "my-iac-stack" "cloudformation/main.yaml"
                     (Demo.boot []))
     = 1
  /\ stdout (deploy_world Demo.env "my-iac-stack" "cloudformation/main.yaml"
                          (Demo.boot []))
     = ["Stack my-iac-stack created successfully."].
Proof.
  split; [reflexivity |].
  destruct (@successful_run_has_exactly_these_effects
              Demo.R Demo.env "my-iac-stack" "cloudformation/main.yaml"
              (Demo.boot []) PyNone eq_refl)
    as (body & n & _ & _ & _ & _ & _ & _ & Hcreate & _ & _ & _ & _ & Hout).
  split; [exact Hcreate | exact Hout].
Defined.

Lemma success_prints_one_line_naming_the_stack_witness :
  deploy_result Demo.env "my-iac-stack" "cloudformation/main.yaml"
                (Demo.boot [])
  = Ok PyNone
  /\ stdout (deploy_world Demo.env "my-iac-stack" "cloudformation/main.yaml"
                          (Demo.boot []))
     = ["Stack my-iac-stack created successfully."].
Proof.
  split; [reflexivity |].
  exact (proj1 (@success_prints_one_line_naming_the_stack
                  Demo.R Demo.env "my-iac-stack" "cloudformation/main.yaml"
                  (Demo.boot []) PyNone eq_refl)).
Defined.

Lemma creation_and_wait_name_the_same_stack_witness :
  In (EvWait "my-iac-stack")
     (deploy_calls Demo.env "my-iac-stack" "cloudformation/main.yaml"
                   (Demo.boot []))
  /\ "my-iac-stack" = "my-iac-stack".
Proof.
  assert (Hin :
    In (EvWait "my-iac-stack")
       (deploy_calls Demo.env "my-iac-stack" "cloudformation/main.yaml"
                     (Demo.boot []))) by pick.
  split; [exact Hin |].
  exact (proj1 (proj2 (@creation_and_wait_name_the_same_stack
                         Demo.R Demo.env "my-iac-stack"
                         "cloudformation/main.yaml" (Demo.boot [])))
               _ Hin).
Defined.

Lemma template_handle_is_always_released_witness :
  open_errno (fs Demo.env "bad-sector.yaml") = None
  /\ fst (run (read_step Demo.env "bad-sector.yaml") (Demo.boot []))
     = Raise (OSError EIO "bad-sector.yaml")
  /\ open_files (snd (run (read_step Demo.env "bad-sector.yaml") (Demo.boot [])))
     = [0; 1; 2].
Proof.
  split; [reflexivity |].
  destruct (@template_handle_is_always_released
              Demo.R Demo.env "my-iac-stack" "bad-sector.yaml" (Demo.boot [])
              eq_refl)
    as (_ & _ & Hheld & _ & Hraise & _).
  split; [exact (Hraise _ eq_refl) | exact Hheld].
Defined.

Lemma entry_point_deploys_the_fixed_stack_once_witness :
  String.eqb "deploy" "__main__" = false
  /\ run (module_main Demo.env "deploy" ["deploy.py"]) (Demo.boot [])
     = (Ok tt, Demo.boot [])
  /\ filter is_open
       (events_since (Demo.boot [])
          (snd (run (module_main Demo.env "__main__" ["deploy.py"])
                    (Demo.boot []))))
     = [EvOpen "cloudformation/main.yaml" "r"].
Proof.
  split; [reflexivity |].
  destruct (@entry_point_deploys_the_fixed_stack_once
              Demo.R Demo.env ["deploy.py"] (Demo.boot []))
    as (_ & _ & Hopen & _ & Himported).
  split; [exact (Himported "deploy" eq_refl) | exact Hopen].
Defined.

Lemma creation_response_is_discarded_witness :
  deploy_result Demo.env "my-iac-stack" "cloudformation/main.yaml"
                (Demo.boot [])
  = Ok PyNone
  /\ run (deploy_stack (with_response (fun _ => []) Demo.env)
                       "my-iac-stack" "cloudformation/main.yaml")
         (Demo.boot [])
     = run (deploy_stack Demo.env "my-iac-stack" "cloudformation/main.yaml")
           (Demo.boot []).
Proof.
  split; [reflexivity |].
  exact (proj2 (@creation_response_is_discarded
                  Demo.R Demo.env (fun _ => [])
                  "my-iac-stack" "cloudformation/main.yaml" (Demo.boot []))).
Defined.


Lemma refused_open_is_the_only_call_witness :
  open_errno (fs Demo.env "private.yaml") = Some EACCES
  /\ run (deploy_stack Demo.env "my-iac-stack" "private.yaml") (Demo.boot [])
     = (Raise (OSError EACCES "private.yaml"),
        mkWorld [EvOpen "private.yaml" "r"] [0; 1; 2] [] []).
Proof.
  split; [reflexivity |].
  exact (@refused_open_is_the_only_call
           Demo.R Demo.env "my-iac-stack" "private.yaml" EACCES (Demo.boot [])
           eq_refl).
Defined.

Lemma failed_client_sends_nothing_witness :
  fs Demo.unconfigured "cloudformation/main.yaml" = Text "Resources: {}"
  /\ client_factory Demo.unconfigured "cloudformation"
     = Some (BotoCoreError "You must specify a region.")
  /\ run (deploy_stack Demo.unconfigured "my-iac-stack"
                       "cloudformation/main.yaml")
         (Demo.boot [("other", 0)])
     = (Raise (BotoCoreError "You must specify a region."),
        mkWorld [EvOpen "cloudformation/main.yaml" "r"; EvRead 3; EvClose 3;
                 EvClient "cloudformation"]
                [0; 1; 2] [] [("other", 0)]).
Proof.
  split; [reflexivity |]. split; [reflexivity |].
  exact (@failed_client_sends_nothing
           Demo.R Demo.unconfigured "my-iac-stack" "cloudformation/main.yaml"
           "Resources: {}" (BotoCoreError "You must specify a region.")
           (Demo.boot [("other", 0)]) eq_refl eq_refl).
Defined.

Lemma calls_follow_the_source_order_witness :
  deploy_calls Demo.env "my-iac-stack" "cloudformation/main.yaml" (Demo.boot [])
  = [EvOpen "cloudformation/main.yaml" "r"; EvRead 3; EvClose 3;
     EvClient "cloudformation";
     EvCreateStack "my-iac-stack" "Resources: {}" ["CAPABILITY_IAM"];
     EvGetWaiter "stack_create_complete";
     EvWait "my-iac-stack"]
    ++ EvDescribeStacks "my-iac-stack" Pending
       :: [EvDescribeStacks "my-iac-stack" Succeeded;
           EvPrint "Stack my-iac-stack created successfully."]
  /\ is_status_read (EvDescribeStacks "my-iac-stack" Pending) = true
  /\ In (EvWait "my-iac-stack")
        [EvOpen "cloudformation/main.yaml" "r"; EvRead 3; EvClose 3;
         EvClient "cloudformation";
         EvCreateStack "my-iac-stack" "Resources: {}" ["CAPABILITY_IAM"];
         EvGetWaiter "stack_create_complete";
         EvWait "my-iac-stack"].
Proof.
  assert (Hsplit :
    deploy_calls Demo.env "my-iac-stack" "cloudformation/main.yaml"
                 (Demo.boot [])
    = [EvOpen "cloudformation/main.yaml" "r"; EvRead 3; EvClose 3;
       EvClient "cloudformation";
       EvCreateStack "my-iac-stack" "Resources: {}" ["CAPABILITY_IAM"];
       EvGetWaiter "stack_create_complete";
       EvWait "my-iac-stack"]
      ++ EvDescribeStacks "my-iac-stack" Pending
         :: [EvDescribeStacks "my-iac-stack" Succeeded;
             EvPrint "Stack my-iac-stack created successfully."])
    by reflexivity.
  split; [exact Hsplit |]. split; [reflexivity |].
  exact (proj2 (@calls_follow_the_source_order
                  Demo.R Demo.env "my-iac-stack" "cloudformation/main.yaml"
                  (Demo.boot []))
               _ _ _ Hsplit eq_refl).
Defined.

